(** * HealthyHabits: the recommendation engine, the profile store and the
      translation fallback of [healthyhabits_app.py]

    The development embeds the pure parts of the script as Rocq functions
    and the stateful ones (the [users] table, the submit handler) by
    explicit state passing.

    Conventions.
    - A Python [str] is a list of Unicode code points ([N]); [lit] turns a
      Rocq string literal (ASCII only) into such a list.  Rocq literals know
      no backslash escapes, so the Rocq literal ["\n- "] is the four
      characters backslash, [n], [-], space: exactly the value of the Python
      literal written with a doubled backslash in the source.
    - A Python list is a Rocq [list]; [x in xs] is [py_in x xs].
    - SQLite integers are [Z] (the 64-bit ceiling of a rowid is not
      modelled). *)

From Stdlib Require Import List String Ascii NArith ZArith Bool Lia.
From Stdlib Require Import Permutation Sorted.
Import ListNotations.

(* ===================================================================== *)
(** ** Python strings *)

Module Py.

Definition char := N.
Definition str := list char.

Definition lit (s : string) : str :=
  List.map N_of_ascii (list_ascii_of_string s).

Definition char_eqb : char -> char -> bool := N.eqb.

Fixpoint str_eqb (a b : str) : bool :=
  match a, b with
  | [], [] => true
  | x :: a', y :: b' => char_eqb x y && str_eqb a' b'
  | _, _ => false
  end.

(** [x in xs] on a list: the first element equal to [x] decides. *)
Fixpoint py_in (x : str) (xs : list str) : bool :=
  match xs with
  | [] => false
  | y :: ys => if str_eqb x y then true else py_in x ys
  end.

(** Truth value of a string: non-empty. *)
Definition truthy (s : str) : bool :=
  match s with [] => false | _ :: _ => true end.

(** [sep.join(xs)]. *)
Fixpoint join (sep : str) (xs : list str) : str :=
  match xs with
  | [] => []
  | [x] => x
  | x :: rest => x ++ sep ++ join sep rest
  end.

(** [s.split(c)] for a one-character separator: never returns the empty
    list, [split_on c [] = [[]]]. *)
Fixpoint split_on (c : char) (s : str) : list str :=
  match s with
  | [] => [[]]
  | x :: s' =>
      if char_eqb x c then [] :: split_on c s'
      else match split_on c s' with
           | [] => [[x]]
           | w :: ws => (x :: w) :: ws
           end
  end.

(** The characters [str.strip()] removes: those for which CPython's
    [Py_UNICODE_ISSPACE] holds. *)
Definition isspace (c : char) : bool :=
  ((9 <=? c) && (c <=? 13)
   || (28 <=? c) && (c <=? 32)
   || (c =? 133) || (c =? 160) || (c =? 5760)
   || (8192 <=? c) && (c <=? 8202)
   || (c =? 8232) || (c =? 8233) || (c =? 8239) || (c =? 8287)
   || (c =? 12288))%N.

Fixpoint lstrip (s : str) : str :=
  match s with
  | [] => []
  | c :: s' => if isspace c then lstrip s' else s
  end.

Definition rstrip (s : str) : str := rev (lstrip (rev s)).

Definition strip (s : str) : str := rstrip (lstrip s).

End Py.

Import Py.

(* ===================================================================== *)
(** ** Recommendation engine *)

Module Engine.

(** The fixed lines, in the order the source writes them. *)
Definition base_diet : str :=
  lit "Include more whole foods: vegetables, fruits, lean proteins, and whole grains.".
Definition base_exercise : str :=
  lit "Aim for at least 30 minutes of moderate activity daily (walking, yoga, or cycling).".
Definition base_sleep : str :=
  lit "Keep consistent sleep schedule. Avoid screens 1 hour before bed.".
Definition base_general : str :=
  lit "Stay hydrated and avoid excessive sugary drinks.".

Definition thyroid_diet : str :=
  lit "For thyroid issues: include selenium-rich foods (nuts, seeds) and iodine sources in moderation; avoid highly processed foods and excessive soy.".
Definition thyroid_exercise : str :=
  lit "Include strength training twice a week to support metabolism.".

Definition apnea_diet : str :=
  lit "For sleep apnea: avoid heavy meals and caffeine close to bedtime; maintain healthy weight.".
Definition apnea_exercise : str :=
  lit "Practice breathing exercises and consider positional therapy (sleeping on side).".
Definition apnea_sleep : str :=
  lit "Consult a clinician for breathing-related sleep disorders; avoid alcohol near bedtime.".

Definition heart_diet : str :=
  lit "Heart-healthy diet: reduce saturated fats, increase fiber, include omega-3 sources like fish or flaxseed.".
Definition heart_exercise : str :=
  lit "Prefer low-impact cardio like brisk walking; check with a doctor before intense exercise.".
Definition heart_general : str :=
  lit "Monitor blood pressure and cholesterol regularly.".

Definition loss_diet : str :=
  lit "Control portion sizes, prefer protein-rich breakfasts, and avoid late-night snacking.".
Definition loss_exercise : str :=
  lit "Incorporate interval walks or brisk walks to increase calorie burn.".

Definition rest_sleep : str :=
  lit "Create a bedtime routine: warm shower, light stretching, and a calm environment.".
Definition rest_diet : str :=
  lit "Avoid heavy, spicy dinners and caffeine after late afternoon.".

Definition energy_diet : str :=
  lit "Include small, frequent balanced meals; add nuts and fruits for healthy snacks.".
Definition energy_exercise : str :=
  lit "Short morning walks and light stretching improve daytime alertness.".

(** Condition and goal tags the rules test for. *)
Definition Thyroid : str := lit "Thyroid".
Definition Sleep_Apnea : str := lit "Sleep Apnea".
Definition Heart_Risk : str := lit "Heart Risk".
Definition Cardiac_History : str := lit "Cardiac History".
Definition Weight_Loss : str := lit "Weight Loss".
Definition Better_Sleep : str := lit "Better Sleep".
Definition Energy_Boost : str := lit "Energy Boost".
Definition Healthy_Habits : str := lit "Healthy Habits".

(** The joiner of the collation step: backslash, [n], [-], space. *)
Definition bullet : str := lit "\n- ".

(** The four local lists of the function body. *)
Record Recs : Type := mkRecs {
  diet_recs : list str;
  exercise_recs : list str;
  sleep_recs : list str;
  general_recs : list str
}.

(** [xs.append(line)] on each of the four lists. *)
Definition diet_append (line : str) (r : Recs) : Recs :=
  mkRecs (diet_recs r ++ [line]) (exercise_recs r) (sleep_recs r) (general_recs r).
Definition exercise_append (line : str) (r : Recs) : Recs :=
  mkRecs (diet_recs r) (exercise_recs r ++ [line]) (sleep_recs r) (general_recs r).
Definition sleep_append (line : str) (r : Recs) : Recs :=
  mkRecs (diet_recs r) (exercise_recs r) (sleep_recs r ++ [line]) (general_recs r).
Definition general_append (line : str) (r : Recs) : Recs :=
  mkRecs (diet_recs r) (exercise_recs r) (sleep_recs r) (general_recs r ++ [line]).

(** The body of [generate_recommendations] up to the collation step,
    statement by statement. *)
Definition collect (conditions : list str) (goal : str) : Recs :=
  let r := mkRecs [] [] [] [] in
  (* Base suggestions *)
  let r := diet_append base_diet r in
  let r := exercise_append base_exercise r in
  let r := sleep_append base_sleep r in
  let r := general_append base_general r in
  (* Condition-specific adjustments *)
  let r :=
    if py_in Thyroid conditions then
      exercise_append thyroid_exercise (diet_append thyroid_diet r)
    else r in
  let r :=
    if py_in Sleep_Apnea conditions then
      sleep_append apnea_sleep
        (exercise_append apnea_exercise (diet_append apnea_diet r))
    else r in
  let r :=
    if py_in Heart_Risk conditions || py_in Cardiac_History conditions then
      general_append heart_general
        (exercise_append heart_exercise (diet_append heart_diet r))
    else r in
  (* Goal-specific tweaks *)
  if str_eqb goal Weight_Loss then
    exercise_append loss_exercise (diet_append loss_diet r)
  else if str_eqb goal Better_Sleep then
    diet_append rest_diet (sleep_append rest_sleep r)
  else if str_eqb goal Energy_Boost then
    exercise_append energy_exercise (diet_append energy_diet r)
  else r.

(** The returned dictionary, keys [diet], [exercise], [sleep], [general]. *)
Record RecommendationSet : Type := mkSet {
  diet : str;
  exercise : str;
  sleep : str;
  general : str
}.

(** Collation of one list: [bullet.join([""] + recs).strip()]. *)
Definition block (recs : list str) : str :=
  strip (join bullet ([] :: recs)).

Definition generate_recommendations (conditions : list str) (goal : str)
  : RecommendationSet :=
  let r := collect conditions goal in
  mkSet (block (diet_recs r)) (block (exercise_recs r))
        (block (sleep_recs r)) (block (general_recs r)).

End Engine.

Import Engine.

(** Closed form of [collect], used to reason about it: the lines each list
    holds as a function of which rules fire. *)
Inductive goal_tag : Type := GWeightLoss | GBetterSleep | GEnergyBoost | GOther.

Definition classify (goal : str) : goal_tag :=
  if str_eqb goal Weight_Loss then GWeightLoss
  else if str_eqb goal Better_Sleep then GBetterSleep
  else if str_eqb goal Energy_Boost then GEnergyBoost
  else GOther.

Definition opt (b : bool) (line : str) : list str :=
  if b then [line] else [].

Definition table (thy apn heart : bool) (g : goal_tag) : Recs :=
  mkRecs
    (base_diet :: opt thy thyroid_diet ++ opt apn apnea_diet
       ++ opt heart heart_diet
       ++ match g with
          | GWeightLoss => [loss_diet]
          | GBetterSleep => [rest_diet]
          | GEnergyBoost => [energy_diet]
          | GOther => []
          end)
    (base_exercise :: opt thy thyroid_exercise ++ opt apn apnea_exercise
       ++ opt heart heart_exercise
       ++ match g with
          | GWeightLoss => [loss_exercise]
          | GEnergyBoost => [energy_exercise]
          | _ => []
          end)
    (base_sleep :: opt apn apnea_sleep
       ++ match g with GBetterSleep => [rest_sleep] | _ => [] end)
    (base_general :: opt heart heart_general).

(** Which rules fire for a given condition list. *)
Definition fired (conditions : list str) (goal : str) : Recs :=
  table (py_in Thyroid conditions) (py_in Sleep_Apnea conditions)
        (py_in Heart_Risk conditions || py_in Cardiac_History conditions)
        (classify goal).

(** Text that follows the first line of a block: every further line preceded
    by the joiner. *)
Definition bulleted (lines : list str) : str :=
  List.concat (List.map (fun l => bullet ++ l) lines).

(** Number of positions of [hay] at which [needle] starts. *)
Fixpoint starts_with (needle hay : str) : bool :=
  match needle, hay with
  | [], _ => true
  | _ :: _, [] => false
  | x :: n', y :: h' => char_eqb x y && starts_with n' h'
  end.

Fixpoint occurrences (needle hay : str) : nat :=
  match hay with
  | [] => if starts_with needle [] then 1 else 0
  | _ :: h' =>
      (if starts_with needle hay then 1 else 0) + occurrences needle h'
  end.

(** [lines.count(line)]. *)
Definition count_line (line : str) (lines : list str) : nat :=
  List.length (filter (str_eqb line) lines).

(** The result for no condition and no goal rule: one bulleted baseline line
    per category. *)
Definition baseline_set : RecommendationSet :=
  mkSet (bullet ++ base_diet) (bullet ++ base_exercise)
        (bullet ++ base_sleep) (bullet ++ base_general).

(* ===================================================================== *)
(** ** Translation fallback *)

Module Translate.

(** The outcome of the module-level [try: from googletrans import ...]:
    either the import (or the construction of the [Translator]) raised, or
    a translator object exists whose [translate] may itself raise on a call
    ([None]). *)
Inductive translator : Type :=
| Unavailable
| Available (translate : str -> str -> option str).

Definition failed_suffix : str := lit " (translation unavailable)".
Definition missing_suffix : str :=
  lit " (Hindi translation not available - please install googletrans)".

Definition translate_text (tr : translator) (text dest : str) : str :=
  match tr with
  | Available translate =>
      match translate text dest with
      | Some t => t
      | None => text ++ failed_suffix
      end
  | Unavailable => text ++ missing_suffix
  end.

Inductive language : Type := English | Hindi.

(** The four texts handed to [st.write], in the order diet, exercise, sleep,
    general (the heading written before each is left out). *)
Definition written (tr : translator) (lang : language)
    (recs : RecommendationSet) : RecommendationSet :=
  match lang with
  | English => recs
  | Hindi =>
      mkSet (translate_text tr (diet recs) (lit "hi"))
            (translate_text tr (exercise recs) (lit "hi"))
            (translate_text tr (sleep recs) (lit "hi"))
            (translate_text tr (general recs) (lit "hi"))
  end.

(** A result with [suffix] behind each of its four blocks. *)
Definition suffixed (recs : RecommendationSet) (suffix : str)
  : RecommendationSet :=
  mkSet (diet recs ++ suffix) (exercise recs ++ suffix)
        (sleep recs ++ suffix) (general recs ++ suffix).

End Translate.

(* ===================================================================== *)
(** ** Profile store *)

Module Store.

(** A row of table [users]. *)
Record Profile : Type := mkProfile {
  id : Z;
  name : str;
  age : Z;
  gender : str;
  conditions : str;
  goal : str;
  created_at : str
}.

(** The database file: the rows of [users] in insertion order and the
    counter SQLite keeps for an AUTOINCREMENT key (largest rowid ever
    handed out). *)
Record DB : Type := mkDB {
  users : list Profile;
  sqlite_sequence : Z
}.

(** [CREATE TABLE IF NOT EXISTS]: a missing table is created empty, an
    existing one is left alone. *)
Definition init_db (file : option DB) : DB :=
  match file with
  | None => mkDB [] 0
  | Some db => db
  end.

Definition max_rowid (rows : list Profile) : Z :=
  fold_right (fun p m => Z.max (id p) m) 0%Z rows.

(** The key an INSERT without an explicit id receives: one more than the
    largest of the rowids in the table and the recorded sequence value. *)
Definition new_rowid (db : DB) : Z :=
  (Z.max (max_rowid (users db)) (sqlite_sequence db) + 1)%Z.

Definition comma : char := 44%N.

(** [now] stands for the value of [datetime.now().isoformat()] at the
    call. *)
Definition save_profile (now : str) (name : str) (age : Z) (gender : str)
    (conditions : list str) (goal : str) (db : DB) : DB :=
  let i := new_rowid db in
  mkDB (users db
          ++ [mkProfile i name age gender (join [comma] conditions) goal now])
       i.

(** [ORDER BY id DESC] as an insertion sort on the key. *)
Fixpoint insert_desc (p : Profile) (rows : list Profile) : list Profile :=
  match rows with
  | [] => [p]
  | q :: rows' =>
      if (id q <? id p)%Z then p :: rows else q :: insert_desc p rows'
  end.

Definition order_by_id_desc (rows : list Profile) : list Profile :=
  fold_right insert_desc [] rows.

(** [SELECT * FROM users ORDER BY id DESC] read into a data frame, here the
    list of its rows. *)
Definition fetch_profiles (db : DB) : list Profile :=
  order_by_id_desc (users db).

(** [df[df['id']==selected_id]]. *)
Definition select_id (df : list Profile) (selected_id : Z) : list Profile :=
  filter (fun p => (id p =? selected_id)%Z) df.

(** [row.iloc[0]['conditions'].split(",") if row.iloc[0]['conditions'] else []]. *)
Definition stored_conditions (row : Profile) : list str :=
  if truthy (conditions row) then split_on comma (conditions row) else [].

Inductive view_result : Type :=
| NotFound (message : str)
| Generated (recs : RecommendationSet).

(** The [Generate for Selected ID] button of the View Profiles page. *)
Definition generate_for_selected (df : list Profile) (selected_id : Z)
  : view_result :=
  match select_id df selected_id with
  | [] =>
      NotFound (lit "Profile ID not found. Choose a valid ID from the table above.")
  | row0 :: _ =>
      Generated (generate_recommendations (stored_conditions row0) (goal row0))
  end.

Inductive submit_result : Type :=
| ValidationError (message : str)
| Saved (message : str) (recs : RecommendationSet).

(** The [Save Profile and Generate Recommendations] button of the Create
    Profile page. *)
Definition submit (now : str) (name : str) (age : Z) (gender : str)
    (conditions : list str) (goal : str) (db : DB) : DB * submit_result :=
  if str_eqb (strip name) [] then
    (db, ValidationError (lit "Please enter a name."))
  else
    let db' := save_profile now name age gender conditions goal db in
    (db', Saved (lit "Profile saved for " ++ name ++ lit ".")
                (generate_recommendations conditions goal)).

(** The options of the conditions multiselect. *)
Definition vocabulary : list str :=
  [lit "Thyroid"; lit "Sleep Apnea"; lit "Heart Risk"; lit "Obesity";
   lit "Diabetes"; lit "None"].

(** Stores the application can produce: the empty table after [init_db] on
    a fresh file, extended by [save_profile]. *)
Inductive reachable : DB -> Prop :=
| reachable_init : reachable (init_db None)
| reachable_save : forall now name age gender conditions goal db,
    reachable db ->
    reachable (save_profile now name age gender conditions goal db).

End Store.

(** ** The View Profiles page *)

Module View.

(** What the page shows: the notice for an empty data frame, or the table
    and, when the button was pressed, the outcome for the id entered. *)
Inductive view_page : Type :=
| NoProfiles (message : str)
| Listing (df : list Store.Profile) (outcome : option Store.view_result).

(** The [View Profiles] branch of the menu; [pressed] is the id in the
    number input when the button was pressed, [None] when it was not. *)
Definition view_profiles (db : Store.DB) (pressed : option Z) : view_page :=
  let df := Store.fetch_profiles db in
  match df with
  | [] => NoProfiles (lit "No profiles created yet.")
  | _ :: _ =>
      Listing df
        (match pressed with
         | Some selected_id => Some (Store.generate_for_selected df selected_id)
         | None => None
         end)
  end.

Definition not_found_message : str :=
  lit "Profile ID not found. Choose a valid ID from the table above.".

End View.

(** ** Vocabulary of the statements about lines *)

(** The tags some rule of the engine tests for. *)
Definition tested (x : str) : bool :=
  py_in x [Thyroid; Sleep_Apnea; Heart_Risk; Cardiac_History].

(** [a] is obtained from [b] by dropping lines. *)
Fixpoint subseq (a b : list str) : bool :=
  match b with
  | [] => match a with [] => true | _ :: _ => false end
  | y :: b' =>
      match a with
      | [] => true
      | x :: a' => if str_eqb x y then subseq a' b' else subseq a b'
      end
  end.

(** No line occurs twice. *)
Fixpoint distinctb (lines : list str) : bool :=
  match lines with
  | [] => true
  | x :: rest => negb (py_in x rest) && distinctb rest
  end.

(** The line feed character. *)
Definition newline : char := 10%N.

(** A conditions list survives the comma-joined column: no element holds a
    comma and the list is not the single empty string. *)
Definition clean (conds : list str) : Prop :=
  (forall x, In x conds -> ~ In Store.comma x) /\ conds <> [[]].

(** ** Sample data *)

Module Sample.

Definition db1 : Store.DB :=
  Store.save_profile (lit "2024-01-01T10:00:00.000000") (lit "Asha") 30
    (lit "Female") [Thyroid; lit "Diabetes"] Weight_Loss (Store.init_db None).

Definition db2 : Store.DB :=
  Store.save_profile (lit "2024-01-02T09:30:00.000000") (lit "Ravi") 45
    (lit "Male") [] Healthy_Habits db1.

(** A name of a space, a no-break space and a tab. *)
Definition blank_name : str := [32; 160; 9]%N.

End Sample.

(* ===================================================================== *)
(** * Properties *)

(** ** Strings and membership *)

Lemma str_eqb_eq (a b : str) : str_eqb a b = true <-> a = b.
Proof.
  revert b; induction a as [|x a IH]; intros [|y b]; simpl;
    try (split; [discriminate | discriminate]); try tauto.
  rewrite andb_true_iff, IH. unfold char_eqb. rewrite N.eqb_eq.
  split; [intros [-> ->]; reflexivity | intros H; injection H; auto].
Qed.

Lemma str_eqb_refl (a : str) : str_eqb a a = true.
Proof. apply str_eqb_eq; reflexivity. Qed.

Lemma str_eqb_neq (a b : str) : str_eqb a b = false <-> a <> b.
Proof.
  rewrite <- str_eqb_eq. destruct (str_eqb a b); intuition congruence.
Qed.

Lemma py_in_In (x : str) (xs : list str) : py_in x xs = true <-> In x xs.
Proof.
  induction xs as [|y ys IH]; simpl.
  - split; [discriminate | tauto].
  - destruct (str_eqb x y) eqn:E.
    + apply str_eqb_eq in E. split; auto.
    + apply str_eqb_neq in E. rewrite IH. split; auto.
      intros [H | H]; [exfalso; apply E; symmetry; exact H | exact H].
Qed.

(** Membership tests only see which elements a list has. *)
Lemma py_in_ext (t : str) (c1 c2 : list str) :
  (In t c1 <-> In t c2) -> py_in t c1 = py_in t c2.
Proof.
  intros H. rewrite <- !py_in_In in H.
  destruct (py_in t c1), (py_in t c2); try reflexivity.
  - symmetry; apply H; reflexivity.
  - apply H; reflexivity.
Qed.

Lemma py_in_false (t : str) (c : list str) :
  py_in t c = false <-> ~ In t c.
Proof.
  rewrite <- py_in_In. destruct (py_in t c); intuition congruence.
Qed.

(** Distinct literals are told apart by evaluating [str_eqb]. *)
Ltac lit_neq :=
  let H := fresh in
  intros H; apply str_eqb_eq in H; vm_compute in H; discriminate H.

(** ** The engine in closed form *)

Lemma collect_fired (conditions : list str) (goal : str) :
  collect conditions goal = fired conditions goal.
Proof.
  unfold collect, fired, classify.
  destruct (py_in Thyroid conditions), (py_in Sleep_Apnea conditions),
    (py_in Heart_Risk conditions), (py_in Cardiac_History conditions),
    (str_eqb goal Weight_Loss), (str_eqb goal Better_Sleep),
    (str_eqb goal Energy_Boost); reflexivity.
Qed.

Lemma generate_fired (conditions : list str) (goal : str) :
  generate_recommendations conditions goal
  = let r := fired conditions goal in
    mkSet (block (diet_recs r)) (block (exercise_recs r))
          (block (sleep_recs r)) (block (general_recs r)).
Proof.
  unfold generate_recommendations. rewrite collect_fired. reflexivity.
Qed.

Lemma fired_ext (c1 c2 : list str) (goal : str) :
  (forall x, In x c1 <-> In x c2) -> fired c1 goal = fired c2 goal.
Proof.
  intros H. unfold fired.
  rewrite (py_in_ext Thyroid c1 c2 (H _)),
          (py_in_ext Sleep_Apnea c1 c2 (H _)),
          (py_in_ext Heart_Risk c1 c2 (H _)),
          (py_in_ext Cardiac_History c1 c2 (H _)).
  reflexivity.
Qed.

(** In every block the trimming removes nothing: the text opens with the
    backslash of the joiner and closes with the full stop of its last line. *)
Lemma block_table (thy apn heart : bool) (g : goal_tag) :
  let r := table thy apn heart g in
  block (diet_recs r) = bullet ++ base_diet ++ bulleted (tl (diet_recs r))
  /\ block (exercise_recs r)
     = bullet ++ base_exercise ++ bulleted (tl (exercise_recs r))
  /\ block (sleep_recs r) = bullet ++ base_sleep ++ bulleted (tl (sleep_recs r))
  /\ block (general_recs r)
     = bullet ++ base_general ++ bulleted (tl (general_recs r)).
Proof.
  destruct thy, apn, heart, g; vm_compute; repeat split; reflexivity.
Qed.

(** ** Claims on the recommendation engine *)

(** C1. With no condition and the goal Healthy Habits each of the four lists
    holds its baseline line and nothing else, and each returned block is
    that one line behind the bullet joiner; the trimming leaves it as it
    is. *)
Theorem generate_empty_healthy_habits :
  collect [] Healthy_Habits
  = mkRecs [base_diet] [base_exercise] [base_sleep] [base_general]
  /\ generate_recommendations [] Healthy_Habits = baseline_set
  /\ diet (generate_recommendations [] Healthy_Habits)
     = lit "\n- Include more whole foods: vegetables, fruits, lean proteins, and whole grains."
  /\ exercise (generate_recommendations [] Healthy_Habits)
     = lit "\n- Aim for at least 30 minutes of moderate activity daily (walking, yoga, or cycling)."
  /\ sleep (generate_recommendations [] Healthy_Habits)
     = lit "\n- Keep consistent sleep schedule. Avoid screens 1 hour before bed."
  /\ general (generate_recommendations [] Healthy_Habits)
     = lit "\n- Stay hydrated and avoid excessive sugary drinks.".
Proof. vm_compute. repeat split; reflexivity. Qed.

(** C2. For the single condition Thyroid and the goal Weight Loss the diet
    list is baseline, thyroid line, weight-loss line and the exercise list
    likewise; each of the four triggered lines is counted once in its list
    and starts at exactly one position of its block. *)
Theorem generate_thyroid_weight_loss :
  let r := collect [Thyroid] Weight_Loss in
  let out := generate_recommendations [Thyroid] Weight_Loss in
  diet_recs r = [base_diet; thyroid_diet; loss_diet]
  /\ exercise_recs r = [base_exercise; thyroid_exercise; loss_exercise]
  /\ count_line thyroid_diet (diet_recs r) = 1
  /\ count_line loss_diet (diet_recs r) = 1
  /\ count_line thyroid_exercise (exercise_recs r) = 1
  /\ count_line loss_exercise (exercise_recs r) = 1
  /\ occurrences thyroid_diet (diet out) = 1
  /\ occurrences loss_diet (diet out) = 1
  /\ occurrences thyroid_exercise (exercise out) = 1
  /\ occurrences loss_exercise (exercise out) = 1
  /\ diet out = bullet ++ base_diet ++ bullet ++ thyroid_diet ++ bullet ++ loss_diet
  /\ exercise out
     = bullet ++ base_exercise ++ bullet ++ thyroid_exercise
       ++ bullet ++ loss_exercise.
Proof. vm_compute. repeat split; reflexivity. Qed.

(** C3. Two condition lists with the same elements, in any order and with
    any repetitions, give the same result for every goal, and the lines of
    both are those of the rule table in its fixed order: baseline, Thyroid,
    Sleep Apnea, Heart Risk or Cardiac History, goal. *)
Theorem generate_order_insensitive (goal : str) (c1 c2 : list str) :
  (forall x, In x c1 <-> In x c2) ->
  generate_recommendations c1 goal = generate_recommendations c2 goal
  /\ collect c1 goal = collect c2 goal
  /\ collect c2 goal
     = table (py_in Thyroid c1) (py_in Sleep_Apnea c1)
             (py_in Heart_Risk c1 || py_in Cardiac_History c1)
             (classify goal).
Proof.
  intros H. rewrite !generate_fired, !collect_fired, <- (fired_ext c1 c2 goal H).
  repeat split; reflexivity.
Qed.

Lemma generate_order_insensitive_witness :
  (forall x, In x [Thyroid; Sleep_Apnea]
             <-> In x [Sleep_Apnea; Thyroid; Sleep_Apnea])
  /\ generate_recommendations [Thyroid; Sleep_Apnea] Better_Sleep
     = generate_recommendations [Sleep_Apnea; Thyroid; Sleep_Apnea] Better_Sleep.
Proof.
  assert (H : forall x, In x [Thyroid; Sleep_Apnea]
                        <-> In x [Sleep_Apnea; Thyroid; Sleep_Apnea])
    by (intros x; simpl; tauto).
  split; [exact H |].
  exact (proj1 (generate_order_insensitive Better_Sleep
                  [Thyroid; Sleep_Apnea] [Sleep_Apnea; Thyroid; Sleep_Apnea] H)).
Defined.

(** A string outside the four tested tags changes no membership test. *)
Lemma py_in_adjoin (t s : str) (c c' : list str) :
  s <> t ->
  (forall x, In x c' <-> x = s \/ In x c) ->
  py_in t c' = py_in t c.
Proof.
  intros Hs H. apply py_in_ext. rewrite H. split; [| auto].
  intros [E | E]; [exfalso; apply Hs; symmetry; exact E | exact E].
Qed.

Lemma classify_other (goal : str) :
  goal <> Weight_Loss -> goal <> Better_Sleep -> goal <> Energy_Boost ->
  classify goal = GOther.
Proof.
  intros H1 H2 H3. unfold classify.
  apply str_eqb_neq in H1, H2, H3. rewrite H1, H2, H3. reflexivity.
Qed.

(** C4. A condition string [s] that is none of the four tags the rules test
    adds nothing: a list [c'] holding the elements of [c] and [s] gives the
    result of [c], for every goal.  A goal [other] that is none of the three
    with a rule adds no goal line: the lists are the table without a goal
    row, the result is that of Healthy Habits, and with no condition it is
    the baseline alone.  The function is total, so no input raises. *)
Theorem unknown_inputs_ignored
    (c c' : list str) (goal s other : str) :
  s <> Thyroid -> s <> Sleep_Apnea ->
  s <> Heart_Risk -> s <> Cardiac_History ->
  (forall x, In x c' <-> x = s \/ In x c) ->
  other <> Weight_Loss -> other <> Better_Sleep -> other <> Energy_Boost ->
  generate_recommendations c' goal = generate_recommendations c goal
  /\ collect c' goal = collect c goal
  /\ collect c other
     = table (py_in Thyroid c) (py_in Sleep_Apnea c)
             (py_in Heart_Risk c || py_in Cardiac_History c) GOther
  /\ generate_recommendations c other
     = generate_recommendations c Healthy_Habits
  /\ generate_recommendations [] other = baseline_set.
Proof.
  intros T A H C U G1 G2 G3.
  assert (E : fired c' goal = fired c goal).
  { unfold fired.
    rewrite (py_in_adjoin Thyroid s c c' T U),
            (py_in_adjoin Sleep_Apnea s c c' A U),
            (py_in_adjoin Heart_Risk s c c' H U),
            (py_in_adjoin Cardiac_History s c c' C U).
    reflexivity. }
  assert (O : forall k, fired k other = fired k Healthy_Habits).
  { intros k. unfold fired. rewrite (classify_other other G1 G2 G3).
    reflexivity. }
  rewrite !generate_fired, !collect_fired, E, !O.
  repeat split; reflexivity.
Qed.

Lemma unknown_inputs_ignored_witness :
  generate_recommendations [Thyroid; lit "Flu"] Weight_Loss
  = generate_recommendations [Thyroid] Weight_Loss
  /\ generate_recommendations [] (lit "Muscle Gain") = baseline_set.
Proof.
  pose proof (unknown_inputs_ignored [Thyroid] [Thyroid; lit "Flu"]
                Weight_Loss (lit "Flu") (lit "Muscle Gain")) as W.
  assert (U : forall x, In x [Thyroid; lit "Flu"]
                        <-> x = lit "Flu" \/ In x [Thyroid]).
  { intros x; simpl. split.
    - intros [E | [E | []]]; [right; left; exact E | left; symmetry; exact E].
    - intros [E | [E | []]]; [right; left; symmetry; exact E | left; exact E]. }
  specialize (W ltac:(lit_neq) ltac:(lit_neq) ltac:(lit_neq) ltac:(lit_neq) U
                ltac:(lit_neq) ltac:(lit_neq) ltac:(lit_neq)).
  split; [exact (proj1 W) | exact (proj2 (proj2 (proj2 (proj2 W))))].
Defined.

(** C9. Two condition lists that agree on every element other than Heart
    Risk and Cardiac History, and that each hold at least one of the two,
    give the same result for every goal; whichever of the two tags are
    present, the heart lines for diet, exercise and general tips are in
    their lists once and start at one position of their blocks. *)
Theorem heart_tags_equivalent (goal : str) (c1 c2 : list str) :
  In Heart_Risk c1 \/ In Cardiac_History c1 ->
  In Heart_Risk c2 \/ In Cardiac_History c2 ->
  (forall x, x <> Heart_Risk -> x <> Cardiac_History ->
             (In x c1 <-> In x c2)) ->
  generate_recommendations c1 goal = generate_recommendations c2 goal
  /\ count_line heart_diet (diet_recs (collect c1 goal)) = 1
  /\ count_line heart_exercise (exercise_recs (collect c1 goal)) = 1
  /\ count_line heart_general (general_recs (collect c1 goal)) = 1
  /\ occurrences heart_diet (diet (generate_recommendations c1 goal)) = 1
  /\ occurrences heart_exercise
       (exercise (generate_recommendations c1 goal)) = 1
  /\ occurrences heart_general
       (general (generate_recommendations c1 goal)) = 1.
Proof.
  intros H1 H2 U.
  assert (B : forall c, In Heart_Risk c \/ In Cardiac_History c ->
                py_in Heart_Risk c || py_in Cardiac_History c = true).
  { intros c [H | H]; apply py_in_In in H; rewrite H;
      [reflexivity | apply orb_true_r]. }
  assert (ET : py_in Thyroid c1 = py_in Thyroid c2)
    by (apply py_in_ext, U; lit_neq).
  assert (EA : py_in Sleep_Apnea c1 = py_in Sleep_Apnea c2)
    by (apply py_in_ext, U; lit_neq).
  rewrite !generate_fired, !collect_fired. unfold fired.
  rewrite (B c1 H1), (B c2 H2), ET, EA.
  split; [reflexivity |].
  destruct (py_in Thyroid c2), (py_in Sleep_Apnea c2), (classify goal);
    vm_compute; repeat split; reflexivity.
Qed.

Lemma heart_tags_equivalent_witness :
  generate_recommendations [Heart_Risk; Thyroid] Energy_Boost
  = generate_recommendations [Thyroid; Cardiac_History; Heart_Risk] Energy_Boost
  /\ count_line heart_diet
       (diet_recs (collect [Heart_Risk; Thyroid] Energy_Boost)) = 1.
Proof.
  pose proof (heart_tags_equivalent Energy_Boost [Heart_Risk; Thyroid]
                [Thyroid; Cardiac_History; Heart_Risk]) as W.
  assert (U : forall x, x <> Heart_Risk -> x <> Cardiac_History ->
                (In x [Heart_Risk; Thyroid]
                 <-> In x [Thyroid; Cardiac_History; Heart_Risk])).
  { intros x Hh Hc; simpl. split.
    - intros [E | [E | []]]; [exfalso; apply Hh; symmetry; exact E | auto].
    - intros [E | [E | [E | []]]];
        [ auto
        | exfalso; apply Hc; symmetry; exact E
        | exfalso; apply Hh; symmetry; exact E ]. }
  specialize (W (or_introl (or_introl eq_refl))
                (or_intror (or_intror (or_introl eq_refl))) U).
  split; [exact (proj1 W) | exact (proj1 (proj2 W))].
Defined.

(** C10. For every condition list and goal each of the four lists starts
    with its baseline line, which occurs nowhere else in it, and each
    returned block is the joiner, the baseline line, and then the remaining
    lines each behind a joiner. *)
Theorem baseline_first (conditions : list str) (goal : str) :
  let r := collect conditions goal in
  let out := generate_recommendations conditions goal in
  exists d e s g,
    diet_recs r = base_diet :: d
    /\ exercise_recs r = base_exercise :: e
    /\ sleep_recs r = base_sleep :: s
    /\ general_recs r = base_general :: g
    /\ diet out = bullet ++ base_diet ++ bulleted d
    /\ exercise out = bullet ++ base_exercise ++ bulleted e
    /\ sleep out = bullet ++ base_sleep ++ bulleted s
    /\ general out = bullet ++ base_general ++ bulleted g
    /\ count_line base_diet d = 0
    /\ count_line base_exercise e = 0
    /\ count_line base_sleep s = 0
    /\ count_line base_general g = 0.
Proof.
  cbv zeta. rewrite generate_fired, collect_fired. unfold fired.
  generalize (py_in Thyroid conditions) (py_in Sleep_Apnea conditions)
             (py_in Heart_Risk conditions || py_in Cardiac_History conditions)
             (classify goal).
  intros thy apn heart t.
  destruct (block_table thy apn heart t) as (Bd & Be & Bs & Bg).
  exists (tl (diet_recs (table thy apn heart t))),
         (tl (exercise_recs (table thy apn heart t))),
         (tl (sleep_recs (table thy apn heart t))),
         (tl (general_recs (table thy apn heart t))).
  cbv zeta. cbn [diet exercise sleep general].
  rewrite Bd, Be, Bs, Bg.
  repeat split; try reflexivity;
    destruct thy, apn, heart, t; vm_compute; reflexivity.
Qed.

(* ===================================================================== *)
(** ** Translation fallback *)

Import Translate.

(** C7. Without a translator every text comes back as the original followed
    by the fixed note on the missing package; with a translator whose call
    raises, as the original followed by the fixed note on the unavailable
    translation.  In both cases the four texts written in the Hindi branch
    are the four English blocks with that suffix; [translate_text] always
    returns a string. *)
Theorem translation_fallback (recs : RecommendationSet) :
  (forall text dest,
     translate_text Unavailable text dest = text ++ missing_suffix)
  /\ (forall translate text dest,
        translate text dest = None ->
        translate_text (Available translate) text dest
        = text ++ failed_suffix)
  /\ written Unavailable Hindi recs = suffixed recs missing_suffix
  /\ (forall translate,
        (forall text, translate text (lit "hi") = None) ->
        written (Available translate) Hindi recs
        = suffixed recs failed_suffix)
  /\ missing_suffix
     = lit " (Hindi translation not available - please install googletrans)"
  /\ failed_suffix = lit " (translation unavailable)".
Proof.
  repeat split.
  - intros translate text dest H. simpl. rewrite H. reflexivity.
  - intros translate H. unfold written, translate_text, suffixed.
    rewrite !H. reflexivity.
Qed.

Lemma translation_fallback_witness :
  translate_text (Available (fun _ _ => None)) (diet baseline_set) (lit "hi")
  = diet baseline_set ++ failed_suffix
  /\ written (Available (fun _ _ => None)) Hindi baseline_set
     = suffixed baseline_set failed_suffix.
Proof.
  destruct (translation_fallback baseline_set) as (_ & F & _ & W & _).
  split.
  - exact (F (fun _ _ => None) (diet baseline_set) (lit "hi") eq_refl).
  - exact (W (fun _ _ => None) (fun _ => eq_refl)).
Defined.

(* ===================================================================== *)
(** ** Trimming *)

Lemma lstrip_nil (s : str) : lstrip s = [] <-> forallb isspace s = true.
Proof.
  induction s as [|c s IH]; simpl.
  - tauto.
  - destruct (isspace c); simpl; [exact IH |].
    split; discriminate.
Qed.

Lemma forallb_lstrip (s : str) :
  forallb isspace (lstrip s) = forallb isspace s.
Proof.
  induction s as [|c s IH]; simpl; [reflexivity |].
  destruct (isspace c) eqn:E; simpl; [exact IH | rewrite E; reflexivity].
Qed.

Lemma forallb_rev_eq (f : char -> bool) (s : str) :
  forallb f (rev s) = forallb f s.
Proof.
  induction s as [|c s IH]; simpl; [reflexivity |].
  rewrite forallb_app, IH. simpl. rewrite andb_true_r. apply andb_comm.
Qed.

(** [name.strip() == ""] holds exactly for the names made of whitespace
    only, the empty name among them. *)
Lemma strip_nil (s : str) : strip s = [] <-> forallb isspace s = true.
Proof.
  unfold strip, rstrip.
  rewrite <- (forallb_lstrip s), <- (forallb_rev_eq isspace (lstrip s)),
          <- lstrip_nil.
  split; intros H.
  - apply (f_equal (@rev char)) in H. rewrite rev_involutive in H. exact H.
  - rewrite H. reflexivity.
Qed.

Lemma strip_eqb (s : str) : str_eqb (strip s) [] = forallb isspace s.
Proof.
  destruct (forallb isspace s) eqn:E.
  - apply str_eqb_eq, strip_nil, E.
  - apply str_eqb_neq. intros H. apply strip_nil in H. congruence.
Qed.

(* ===================================================================== *)
(** ** Profile store *)

Import Store.

Lemma max_rowid_bound (rows : list Profile) (p : Profile) :
  In p rows -> (id p <= max_rowid rows)%Z.
Proof.
  induction rows as [|q rows IH]; simpl; [tauto |].
  intros [-> | H]; [lia | specialize (IH H); lia].
Qed.

Lemma new_rowid_fresh (db : DB) (p : Profile) :
  In p (users db) -> (id p < new_rowid db)%Z.
Proof.
  intros H. apply max_rowid_bound in H. unfold new_rowid. lia.
Qed.

Lemma insert_desc_perm (p : Profile) (rows : list Profile) :
  Permutation (insert_desc p rows) (p :: rows).
Proof.
  induction rows as [|q rows IH]; simpl; [reflexivity |].
  destruct (id q <? id p)%Z; [reflexivity |].
  rewrite IH. apply perm_swap.
Qed.

Lemma order_by_id_desc_perm (rows : list Profile) :
  Permutation (order_by_id_desc rows) rows.
Proof.
  induction rows as [|p rows IH]; simpl; [reflexivity |].
  rewrite insert_desc_perm. constructor. exact IH.
Qed.

Lemma insert_desc_sorted (p : Profile) (rows : list Profile) :
  StronglySorted (fun a b => (id b <= id a)%Z) rows ->
  StronglySorted (fun a b => (id b <= id a)%Z) (insert_desc p rows).
Proof.
  induction rows as [|q rows IH]; intros S; simpl.
  - repeat constructor.
  - inversion S as [|? ? S' F]; subst.
    destruct (id q <? id p)%Z eqn:E.
    + apply Z.ltb_lt in E. constructor; [exact S |].
      constructor; [lia |].
      rewrite Forall_forall in F |- *. intros x Hx. specialize (F x Hx). lia.
    + apply Z.ltb_ge in E. constructor; [apply IH, S' |].
      rewrite Forall_forall in F |- *. intros x Hx.
      apply (Permutation_in _ (insert_desc_perm p rows)) in Hx.
      destruct Hx as [<- | Hx]; [exact E | apply F, Hx].
Qed.

Lemma order_by_id_desc_sorted (rows : list Profile) :
  StronglySorted (fun a b => (id b <= id a)%Z) (order_by_id_desc rows).
Proof.
  induction rows as [|p rows IH]; simpl; [constructor |].
  apply insert_desc_sorted, IH.
Qed.

(** A row whose key exceeds all others comes first, whatever was inserted
    before it. *)
Lemma order_by_id_desc_newest (rows acc : list Profile) (p : Profile) :
  Forall (fun q => (id q < id p)%Z) rows ->
  fold_right insert_desc (p :: acc) rows
  = p :: fold_right insert_desc acc rows.
Proof.
  induction rows as [|q rows IH]; intros F; simpl; [reflexivity |].
  inversion F as [|? ? Hq F']; subst. rewrite (IH F'). simpl.
  destruct (id p <? id q)%Z eqn:E; [apply Z.ltb_lt in E; lia | reflexivity].
Qed.

Lemma order_by_id_desc_snoc (rows : list Profile) (p : Profile) :
  Forall (fun q => (id q < id p)%Z) rows ->
  order_by_id_desc (rows ++ [p]) = p :: order_by_id_desc rows.
Proof.
  intros F. unfold order_by_id_desc. rewrite fold_right_app. simpl.
  apply order_by_id_desc_newest, F.
Qed.

Lemma fetch_after_save now name age gender conditions goal (db : DB) :
  fetch_profiles (save_profile now name age gender conditions goal db)
  = mkProfile (new_rowid db) name age gender (join [comma] conditions) goal now
    :: fetch_profiles db.
Proof.
  unfold fetch_profiles, save_profile. simpl.
  apply order_by_id_desc_snoc. rewrite Forall_forall.
  intros q Hq. simpl. apply new_rowid_fresh, Hq.
Qed.

Lemma reachable_fetch (db : DB) :
  reachable db -> fetch_profiles db = rev (users db).
Proof.
  induction 1 as [|now name age gender conditions goal db R IH].
  - reflexivity.
  - rewrite fetch_after_save, IH. simpl. rewrite rev_app_distr. reflexivity.
Qed.

Lemma reachable_strict (db : DB) :
  reachable db ->
  StronglySorted (fun a b => (id b < id a)%Z) (fetch_profiles db).
Proof.
  induction 1 as [|now name age gender conditions goal db R IH].
  - constructor.
  - rewrite fetch_after_save. constructor; [exact IH |].
    rewrite Forall_forall. intros q Hq. simpl.
    apply new_rowid_fresh.
    apply (Permutation_in _ (order_by_id_desc_perm (users db))), Hq.
Qed.

(** C8. [fetch_profiles] returns the rows of the table, all of them and no
    other, by descending id; for an empty table it returns no row.  In a
    store built by [save_profile] from the empty table the ids fall
    strictly and the order is the reverse of the order of insertion: the
    profile created last comes first. *)
Theorem fetch_profiles_newest_first (db : DB) (n : Z) :
  Permutation (fetch_profiles db) (users db)
  /\ StronglySorted (fun a b => (id b <= id a)%Z) (fetch_profiles db)
  /\ fetch_profiles (mkDB [] n) = []
  /\ fetch_profiles (init_db None) = []
  /\ (reachable db ->
      fetch_profiles db = rev (users db)
      /\ StronglySorted (fun a b => (id b < id a)%Z) (fetch_profiles db)).
Proof.
  split; [apply order_by_id_desc_perm |].
  split; [apply order_by_id_desc_sorted |].
  split; [reflexivity |].
  split; [reflexivity |].
  intros R. split; [apply reachable_fetch, R | apply reachable_strict, R].
Qed.

Lemma fetch_profiles_newest_first_witness :
  reachable Sample.db2
  /\ fetch_profiles Sample.db2 = rev (users Sample.db2)
  /\ List.map id (fetch_profiles Sample.db2) = [2; 1]%Z.
Proof.
  assert (R : reachable Sample.db2) by (repeat constructor).
  split; [exact R |].
  split; [| reflexivity].
  exact (proj1 (proj2 (proj2 (proj2 (proj2
           (fetch_profiles_newest_first Sample.db2 0)))) R)).
Defined.

(** C5. Pressing the save button with a name that is empty or made of
    whitespace only yields the validation error and the store as it was;
    with any other name the store becomes the one [save_profile] returns.
    [save_profile] appends exactly one row: it carries the name given, the
    clock value of the call as its timestamp, and an id above every id
    already in the table. *)
Theorem submit_validates_name
    (now name : str) (age : Z) (gender : str) (conditions : list str)
    (goal : str) (db : DB) :
  (forallb isspace name = true ->
     submit now name age gender conditions goal db
     = (db, ValidationError (lit "Please enter a name.")))
  /\ (forallb isspace name = false ->
      fst (submit now name age gender conditions goal db)
      = save_profile now name age gender conditions goal db
      /\ exists message,
           snd (submit now name age gender conditions goal db)
           = Saved message (generate_recommendations conditions goal))
  /\ (let db' := save_profile now name age gender conditions goal db in
      exists row,
        users db' = users db ++ [row]
        /\ List.length (users db') = S (List.length (users db))
        /\ created_at row = now
        /\ Store.name row = name
        /\ id row = new_rowid db
        /\ forall q, In q (users db) -> (id q < id row)%Z).
Proof.
  split; [| split].
  - intros B. unfold submit. rewrite strip_eqb, B. reflexivity.
  - intros B. unfold submit. rewrite strip_eqb, B. simpl.
    split; [reflexivity | eexists; reflexivity].
  - cbv zeta. eexists. split; [reflexivity |].
    split; [simpl; rewrite length_app; simpl; lia |].
    repeat split. intros q Hq. simpl. apply new_rowid_fresh, Hq.
Qed.

Lemma submit_validates_name_witness :
  (forallb isspace Sample.blank_name = true
   /\ submit (lit "2024-01-03T08:00:00.000000") Sample.blank_name 30
        (lit "Other") [Thyroid] Weight_Loss Sample.db1
      = (Sample.db1, ValidationError (lit "Please enter a name.")))
  /\ (forallb isspace (lit "Meera Nair") = false
      /\ fst (submit (lit "2024-01-03T08:00:00.000000") (lit "Meera Nair") 30
                (lit "Other") [Thyroid] Weight_Loss Sample.db1)
         = save_profile (lit "2024-01-03T08:00:00.000000") (lit "Meera Nair")
             30 (lit "Other") [Thyroid] Weight_Loss Sample.db1).
Proof.
  split.
  - split; [reflexivity |].
    apply (submit_validates_name (lit "2024-01-03T08:00:00.000000")
             Sample.blank_name 30 (lit "Other") [Thyroid] Weight_Loss
             Sample.db1).
    reflexivity.
  - split; [reflexivity |].
    apply (submit_validates_name (lit "2024-01-03T08:00:00.000000")
             (lit "Meera Nair") 30 (lit "Other") [Thyroid] Weight_Loss
             Sample.db1).
    reflexivity.
Defined.

(** ** Joining and splitting on the comma *)

Lemma split_on_clean (c : char) (x : str) :
  ~ In c x -> split_on c x = [x].
Proof.
  induction x as [|a x IH]; intros H; simpl; [reflexivity |].
  unfold char_eqb. destruct (N.eqb_spec a c) as [E | E].
  - exfalso; apply H; left; exact E.
  - rewrite IH; [reflexivity |]. intros H'; apply H; right; exact H'.
Qed.

Lemma split_on_app (c : char) (x s : str) :
  ~ In c x -> split_on c (x ++ c :: s) = x :: split_on c s.
Proof.
  induction x as [|a x IH]; intros H; simpl.
  - unfold char_eqb. rewrite N.eqb_refl. reflexivity.
  - unfold char_eqb. destruct (N.eqb_spec a c) as [E | E].
    + exfalso; apply H; left; exact E.
    + rewrite IH; [reflexivity |]. intros H'; apply H; right; exact H'.
Qed.

Lemma split_join (c : char) (xs : list str) :
  xs <> [] -> (forall x, In x xs -> ~ In c x) ->
  split_on c (join [c] xs) = xs.
Proof.
  induction xs as [|x xs IH]; intros N F; [congruence |].
  destruct xs as [|y ys].
  - simpl. apply split_on_clean, F. left; reflexivity.
  - change (join [c] (x :: y :: ys)) with (x ++ c :: join [c] (y :: ys)).
    rewrite split_on_app by (apply F; left; reflexivity).
    rewrite IH; [reflexivity | discriminate |].
    intros z Hz. apply F. right; exact Hz.
Qed.

(** What is read back from the [conditions] column is the list that was
    joined, unless a condition holds a comma or the list is the single empty
    string. *)
Lemma stored_conditions_join (row : Profile) (conds : list str) :
  conditions row = join [comma] conds ->
  (forall x, In x conds -> ~ In comma x) -> conds <> [[]] ->
  stored_conditions row = conds.
Proof.
  intros E F N. unfold stored_conditions. rewrite E.
  destruct conds as [|x [|y ys]].
  - reflexivity.
  - destruct x as [|a x]; [exfalso; apply N; reflexivity |].
    simpl. apply (split_on_clean comma (a :: x)), F. left; reflexivity.
  - replace (truthy (join [comma] (x :: y :: ys))) with true
      by (destruct x; reflexivity).
    apply split_join; [discriminate | exact F].
Qed.

Lemma vocabulary_clean (x : str) :
  In x vocabulary -> ~ In comma x /\ x <> [].
Proof.
  assert (C : forall y, existsb (N.eqb comma) y = false -> ~ In comma y).
  { intros y Hy Hin.
    assert (T : existsb (N.eqb comma) y = true)
      by (apply existsb_exists; exists comma; split;
          [exact Hin | apply N.eqb_refl]).
    congruence. }
  unfold vocabulary. simpl.
  intros [<- | [<- | [<- | [<- | [<- | [<- | []]]]]]];
    (split; [apply C; reflexivity | discriminate]).
Qed.

Lemma select_id_none (rows : list Profile) (k : Z) :
  (forall q, In q rows -> id q <> k) -> select_id rows k = [].
Proof.
  induction rows as [|q rows IH]; intros F; simpl; [reflexivity |].
  destruct (Z.eqb_spec (id q) k) as [E | E].
  - exfalso. apply (F q); [left; reflexivity | exact E].
  - apply IH. intros r Hr. apply F. right; exact Hr.
Qed.

(** C6. A profile whose conditions come from the multiselect options is
    saved and then found by the id it received: exactly one row matches,
    the list read back from its [conditions] column is the list supplied
    (the empty list included), and the recommendations generated for the
    selected id are those of the supplied conditions and goal. *)
Theorem conditions_round_trip
    (now name : str) (age : Z) (gender : str) (conds : list str)
    (goal : str) (db : DB) :
  Forall (fun c => In c vocabulary) conds ->
  let db' := save_profile now name age gender conds goal db in
  exists row,
    select_id (fetch_profiles db') (new_rowid db) = [row]
    /\ id row = new_rowid db
    /\ conditions row = join [comma] conds
    /\ stored_conditions row = conds
    /\ generate_for_selected (fetch_profiles db') (new_rowid db)
       = Generated (generate_recommendations conds goal).
Proof.
  intros V. cbv zeta.
  set (row := mkProfile (new_rowid db) name age gender
                (join [comma] conds) goal now).
  assert (S : select_id
                (fetch_profiles (save_profile now name age gender conds goal db))
                (new_rowid db) = [row]).
  { rewrite fetch_after_save. fold row. unfold select_id. simpl.
    rewrite Z.eqb_refl. f_equal.
    apply (select_id_none (fetch_profiles db) (new_rowid db)).
    intros q Hq.
    apply (Permutation_in _ (order_by_id_desc_perm (users db))) in Hq.
    apply new_rowid_fresh in Hq. lia. }
  assert (C : stored_conditions row = conds).
  { apply stored_conditions_join; [reflexivity | |].
    - rewrite Forall_forall in V. intros x Hx.
      apply (vocabulary_clean x (V x Hx)).
    - intros E. subst conds. inversion V as [|? ? H0 _]; subst.
      apply (proj2 (vocabulary_clean [] H0)). reflexivity. }
  exists row. split; [exact S |].
  split; [reflexivity |]. split; [reflexivity |]. split; [exact C |].
  unfold generate_for_selected. rewrite S, C. reflexivity.
Qed.

Lemma conditions_round_trip_witness :
  Forall (fun c => In c vocabulary) [lit "Sleep Apnea"; lit "None"]
  /\ exists row,
       select_id
         (fetch_profiles
            (save_profile (lit "2024-01-03T08:00:00.000000") (lit "Meera Nair")
               52 (lit "Female") [lit "Sleep Apnea"; lit "None"] Better_Sleep
               Sample.db2))
         3%Z = [row]
       /\ conditions row = lit "Sleep Apnea,None"
       /\ stored_conditions row = [lit "Sleep Apnea"; lit "None"].
Proof.
  assert (V : Forall (fun c => In c vocabulary) [lit "Sleep Apnea"; lit "None"]).
  { repeat constructor; simpl; tauto. }
  split; [exact V |].
  destruct (conditions_round_trip (lit "2024-01-03T08:00:00.000000")
              (lit "Meera Nair") 52 (lit "Female")
              [lit "Sleep Apnea"; lit "None"] Better_Sleep Sample.db2 V)
    as (row & S & _ & C & R & _).
  exists row. split; [exact S |]. split; [exact C | exact R].
Defined.

(** Outside the options the column does not always read back as written:
    a condition holding a comma is split in two, and the list of the single
    empty string is read back as the empty list. *)
Example stored_conditions_outside_options :
  split_on comma (join [comma] [lit "Heart Risk, mild"])
  = [lit "Heart Risk"; lit " mild"]
  /\ stored_conditions
       (mkProfile 1 (lit "Asha") 30 (lit "Female") (join [comma] [[]])
          Healthy_Habits (lit "2024-01-01T10:00:00.000000"))
     = [].
Proof. split; reflexivity. Qed.

(* ===================================================================== *)
(** * Further properties of the engine *)

Lemma py_in_filter (f : str -> bool) (t : str) (c : list str) :
  f t = true -> py_in t (filter f c) = py_in t c.
Proof.
  intros F. apply py_in_ext. rewrite filter_In. tauto.
Qed.

(** X1. Only the elements that some rule tests for count: dropping every
    other string from the conditions leaves the result as it is. *)
Theorem generate_tested_only (conditions : list str) (goal : str) :
  generate_recommendations (filter tested conditions) goal
  = generate_recommendations conditions goal
  /\ collect (filter tested conditions) goal = collect conditions goal.
Proof.
  rewrite !generate_fired, !collect_fired. unfold fired.
  rewrite !py_in_filter by reflexivity. split; reflexivity.
Qed.

Lemma py_in_incl (t : str) (c1 c2 : list str) :
  incl c1 c2 -> py_in t c1 = true -> py_in t c2 = true.
Proof.
  intros I H. apply py_in_In. apply I. apply py_in_In. exact H.
Qed.

(** X2. More conditions never take a line away: when every element of [c1]
    is in [c2], each list produced for [c1] is the list produced for [c2]
    with some lines dropped, in the same order. *)
Theorem generate_monotone (goal : str) (c1 c2 : list str) :
  incl c1 c2 ->
  subseq (diet_recs (collect c1 goal)) (diet_recs (collect c2 goal)) = true
  /\ subseq (exercise_recs (collect c1 goal))
            (exercise_recs (collect c2 goal)) = true
  /\ subseq (sleep_recs (collect c1 goal)) (sleep_recs (collect c2 goal)) = true
  /\ subseq (general_recs (collect c1 goal))
            (general_recs (collect c2 goal)) = true.
Proof.
  intros I. rewrite !collect_fired. unfold fired.
  pose proof (py_in_incl Thyroid c1 c2 I) as T.
  pose proof (py_in_incl Sleep_Apnea c1 c2 I) as A.
  assert (H : py_in Heart_Risk c1 || py_in Cardiac_History c1 = true ->
              py_in Heart_Risk c2 || py_in Cardiac_History c2 = true).
  { rewrite !orb_true_iff.
    intros [E | E]; [left | right]; eapply py_in_incl; eauto. }
  revert T A H.
  generalize (py_in Heart_Risk c1 || py_in Cardiac_History c1)
             (py_in Heart_Risk c2 || py_in Cardiac_History c2).
  intros h1 h2.
  destruct (py_in Thyroid c1), (py_in Thyroid c2); intros T;
    try (specialize (T eq_refl); discriminate T);
    destruct (py_in Sleep_Apnea c1), (py_in Sleep_Apnea c2); intros A;
    try (specialize (A eq_refl); discriminate A);
    destruct h1, h2; intros H;
    try (specialize (H eq_refl); discriminate H);
    destruct (classify goal); vm_compute; repeat split; reflexivity.
Qed.

Lemma generate_monotone_witness :
  incl [Thyroid] [Sleep_Apnea; Thyroid; Heart_Risk]
  /\ subseq (diet_recs (collect [Thyroid] Weight_Loss))
       (diet_recs (collect [Sleep_Apnea; Thyroid; Heart_Risk] Weight_Loss))
     = true.
Proof.
  assert (I : incl [Thyroid] [Sleep_Apnea; Thyroid; Heart_Risk]).
  { intros x [<- | []]. right; left; reflexivity. }
  split; [exact I |].
  exact (proj1 (generate_monotone Weight_Loss [Thyroid]
                  [Sleep_Apnea; Thyroid; Heart_Risk] I)).
Defined.

Lemma distinctb_NoDup (lines : list str) :
  distinctb lines = true -> NoDup lines.
Proof.
  induction lines as [|x rest IH]; simpl; intros H; [constructor |].
  apply andb_true_iff in H. destruct H as [N D].
  constructor; [| apply IH, D].
  apply py_in_false. destruct (py_in x rest); [discriminate | reflexivity].
Qed.

(** X3. Whatever the input, no list holds a line twice, and the lists are
    short: one to five lines for diet and for exercise, one to three for
    sleep, one or two for general tips. *)
Theorem generate_lines_distinct_bounded (conditions : list str) (goal : str) :
  let r := collect conditions goal in
  NoDup (diet_recs r) /\ NoDup (exercise_recs r)
  /\ NoDup (sleep_recs r) /\ NoDup (general_recs r)
  /\ 1 <= List.length (diet_recs r) <= 5
  /\ 1 <= List.length (exercise_recs r) <= 5
  /\ 1 <= List.length (sleep_recs r) <= 3
  /\ 1 <= List.length (general_recs r) <= 2.
Proof.
  cbv zeta. rewrite collect_fired. unfold fired.
  generalize (py_in Thyroid conditions) (py_in Sleep_Apnea conditions)
             (py_in Heart_Risk conditions || py_in Cardiac_History conditions)
             (classify goal).
  intros thy apn heart t.
  repeat split;
    try (apply distinctb_NoDup; destruct thy, apn, heart, t; reflexivity);
    destruct thy, apn, heart, t; simpl; lia.
Qed.

Lemma existsb_not_in (c : char) (s : str) :
  existsb (char_eqb c) s = false -> ~ In c s.
Proof.
  intros E H.
  assert (T : existsb (char_eqb c) s = true)
    by (apply existsb_exists; exists c; split;
        [exact H | apply N.eqb_refl]).
  congruence.
Qed.

(** X4. No returned block ever holds a line feed: the lines are joined by
    the four characters backslash, [n], hyphen, space, and the trimming
    removes nothing, so each block is the plain join of the empty string
    and the lines. *)
Theorem generate_blocks_single_line (conditions : list str) (goal : str) :
  let r := collect conditions goal in
  let out := generate_recommendations conditions goal in
  ~ In newline (diet out) /\ ~ In newline (exercise out)
  /\ ~ In newline (sleep out) /\ ~ In newline (general out)
  /\ diet out = join bullet ([] :: diet_recs r)
  /\ exercise out = join bullet ([] :: exercise_recs r)
  /\ sleep out = join bullet ([] :: sleep_recs r)
  /\ general out = join bullet ([] :: general_recs r).
Proof.
  cbv zeta. rewrite generate_fired, collect_fired. unfold fired.
  generalize (py_in Thyroid conditions) (py_in Sleep_Apnea conditions)
             (py_in Heart_Risk conditions || py_in Cardiac_History conditions)
             (classify goal).
  intros thy apn heart t. cbv zeta. cbn [diet exercise sleep general].
  repeat split;
    try (apply existsb_not_in);
    destruct thy, apn, heart, t; vm_compute; reflexivity.
Qed.



(* ===================================================================== *)
(** * Further properties of the profile store *)

Lemma max_rowid_snoc (rows : list Profile) (p : Profile) :
  max_rowid (rows ++ [p]) = Z.max (max_rowid rows) (Z.max (id p) 0).
Proof.
  induction rows as [|q rows IH]; simpl.
  - assert (0 <= max_rowid [])%Z by (simpl; lia). simpl. lia.
  - rewrite IH. lia.
Qed.

Lemma max_rowid_nonneg (rows : list Profile) : (0 <= max_rowid rows)%Z.
Proof. induction rows as [|q rows IH]; simpl; lia. Qed.

(** The invariant of the stores the application builds. *)
Lemma reachable_invariant (db : DB) :
  reachable db ->
  List.map id (users db)
  = List.map Z.of_nat (seq 1 (List.length (users db)))
  /\ sqlite_sequence db = Z.of_nat (List.length (users db))
  /\ max_rowid (users db) = Z.of_nat (List.length (users db)).
Proof.
  induction 1 as [|now name age gender conditions goal db R (I1 & I2 & I3)].
  - repeat split.
  - assert (N : new_rowid db = Z.of_nat (S (List.length (users db))))
      by (unfold new_rowid; rewrite I2, I3; lia).
    unfold save_profile. cbn [users sqlite_sequence].
    rewrite max_rowid_snoc, length_app, Nat.add_1_r, map_app, seq_S, map_app.
    cbn [List.map id List.length]. rewrite I1, I3, N.
    repeat split; try reflexivity. lia.
Qed.



(** X6. In a store built by [save_profile] from the empty table the ids are
    1, 2, ..., n in the order of insertion, the sequence counter is n, the
    next id is n + 1, and no id occurs twice. *)
Theorem reachable_ids_consecutive (db : DB) :
  reachable db ->
  List.map id (users db)
  = List.map Z.of_nat (seq 1 (List.length (users db)))
  /\ sqlite_sequence db = Z.of_nat (List.length (users db))
  /\ new_rowid db = (Z.of_nat (List.length (users db)) + 1)%Z
  /\ NoDup (List.map id (users db)).
Proof.
  intros R. destruct (reachable_invariant db R) as (I1 & I2 & I3).
  split; [exact I1 |]. split; [exact I2 |].
  split; [unfold new_rowid; rewrite I2, I3; lia |].
  rewrite I1. apply Finite.Injective_map_NoDup; [| apply seq_NoDup].
  intros a b E. apply Nat2Z.inj. exact E.
Qed.

Lemma reachable_ids_consecutive_witness :
  reachable Sample.db2
  /\ List.map id (users Sample.db2) = [1; 2]%Z
  /\ new_rowid Sample.db2 = 3%Z.
Proof.
  assert (R : reachable Sample.db2) by (repeat constructor).
  destruct (reachable_ids_consecutive Sample.db2 R) as (I & _ & N & _).
  split; [exact R |]. split; [exact I | exact N].
Defined.



Lemma select_new_row now name age gender conditions goal (db : DB) :
  select_id
    (fetch_profiles (save_profile now name age gender conditions goal db))
    (new_rowid db)
  = [mkProfile (new_rowid db) name age gender (join [comma] conditions)
       goal now].
Proof.
  rewrite fetch_after_save. unfold select_id. simpl.
  rewrite Z.eqb_refl. f_equal.
  apply (select_id_none (fetch_profiles db) (new_rowid db)).
  intros q Hq.
  apply (Permutation_in _ (order_by_id_desc_perm (users db))) in Hq.
  apply new_rowid_fresh in Hq. lia.
Qed.

Lemma select_old_row now name age gender conditions goal (db : DB) (k : Z) :
  k <> new_rowid db ->
  select_id
    (fetch_profiles (save_profile now name age gender conditions goal db)) k
  = select_id (fetch_profiles db) k.
Proof.
  intros N. rewrite fetch_after_save. unfold select_id. simpl.
  destruct (Z.eqb_spec (new_rowid db) k) as [E | E]; [| reflexivity].
  exfalso. apply N. symmetry. exact E.
Qed.

(** X8. Saving a further profile does not touch the ones already stored:
    looking up the id of a stored row gives the same rows before and after
    the save, and the row itself is among them. *)
Theorem save_profile_keeps_rows
    (now name : str) (age : Z) (gender : str) (conditions : list str)
    (goal : str) (db : DB) (p : Profile) :
  In p (users db) ->
  select_id
    (fetch_profiles (save_profile now name age gender conditions goal db))
    (id p)
  = select_id (fetch_profiles db) (id p)
  /\ In p (select_id (fetch_profiles db) (id p)).
Proof.
  intros Hp. split.
  - apply select_old_row. apply new_rowid_fresh in Hp. lia.
  - unfold select_id. apply filter_In. split; [| apply Z.eqb_refl].
    apply (Permutation_in _ (Permutation_sym (order_by_id_desc_perm (users db)))).
    exact Hp.
Qed.

Lemma save_profile_keeps_rows_witness :
  select_id (fetch_profiles Sample.db2) 1%Z
  = select_id (fetch_profiles Sample.db1) 1%Z
  /\ List.map name (select_id (fetch_profiles Sample.db2) 1%Z) = [lit "Asha"].
Proof.
  split; [| reflexivity].
  apply (save_profile_keeps_rows (lit "2024-01-02T09:30:00.000000")
           (lit "Ravi") 45 (lit "Male") [] Healthy_Habits Sample.db1
           (mkProfile 1 (lit "Asha") 30 (lit "Female")
              (lit "Thyroid,Diabetes") Weight_Loss
              (lit "2024-01-01T10:00:00.000000"))).
  left. reflexivity.
Defined.

Import View.

(** Lookup by id in a store the application built: one row for an id from 1
    to the number of rows, none for any other. *)
Lemma reachable_select (db : DB) :
  reachable db ->
  forall k : Z,
    ((1 <= k <= Z.of_nat (List.length (users db)))%Z ->
       exists row,
         select_id (fetch_profiles db) k = [row]
         /\ In row (users db) /\ id row = k)
    /\ ((k < 1 \/ Z.of_nat (List.length (users db)) < k)%Z ->
        select_id (fetch_profiles db) k = []).
Proof.
  intros R.
  induction R as [|now name age gender conditions goal db R IH]; intros k.
  - split; [simpl; lia | reflexivity].
  - destruct (reachable_invariant db R) as (_ & I2 & I3).
    assert (N : new_rowid db = Z.of_nat (S (List.length (users db))))
      by (unfold new_rowid; rewrite I2, I3; lia).
    assert (L : List.length
                  (users (save_profile now name age gender conditions goal db))
                = S (List.length (users db)))
      by (unfold save_profile; cbn [users]; rewrite length_app; simpl; lia).
    rewrite L. destruct (IH k) as [Found Missing]. split.
    + intros B. destruct (Z.eq_dec k (new_rowid db)) as [E | E].
      * subst k. eexists. split; [apply select_new_row |].
        split; [| reflexivity].
        unfold save_profile. cbn [users]. apply in_or_app. right. left.
        reflexivity.
      * destruct Found as (row & S & Hin & Hid); [lia |].
        exists row. rewrite select_old_row by exact E.
        split; [exact S |]. split; [| exact Hid].
        unfold save_profile. cbn [users]. apply in_or_app. left. exact Hin.
    + intros B. rewrite select_old_row by lia. apply Missing. lia.
Qed.

(** X9. The View Profiles page over a store the application built, with n
    rows: with no row it shows the notice and ignores the button; an id
    from 1 to n generates the recommendations of the one row with that id,
    from the conditions read back from its column and its goal; any other
    id gives the not-found message. *)
Theorem view_profiles_lookup (db : DB) (k : Z) :
  reachable db ->
  (users db = [] ->
     view_profiles db (Some k) = NoProfiles (lit "No profiles created yet."))
  /\ ((1 <= k <= Z.of_nat (List.length (users db)))%Z ->
      exists row,
        In row (users db) /\ id row = k
        /\ view_profiles db (Some k)
           = Listing (rev (users db))
               (Some (Generated
                        (generate_recommendations (stored_conditions row)
                           (Store.goal row)))))
  /\ (users db <> [] ->
      (k < 1 \/ Z.of_nat (List.length (users db)) < k)%Z ->
      view_profiles db (Some k)
      = Listing (rev (users db)) (Some (NotFound not_found_message))).
Proof.
  intros R. pose proof (reachable_fetch db R) as F.
  destruct (reachable_select db R k) as [Found Missing].
  assert (NE : users db <> [] ->
               exists p rest, fetch_profiles db = p :: rest).
  { intros H. rewrite F. destruct (rev (users db)) as [|p rest] eqn:E.
    - exfalso. apply H. apply (f_equal (@rev Profile)) in E.
      rewrite rev_involutive in E. exact E.
    - eauto. }
  split; [| split].
  - intros E. unfold view_profiles. rewrite F, E. reflexivity.
  - intros B. destruct (Found B) as (row & S & Hin & Hid).
    exists row. split; [exact Hin |]. split; [exact Hid |].
    destruct NE as (p & rest & E);
      [intros H; rewrite H in Hin; exact Hin |].
    unfold view_profiles, generate_for_selected. rewrite S, <- F, E.
    reflexivity.
  - intros H B. destruct (NE H) as (p & rest & E).
    unfold view_profiles, generate_for_selected.
    rewrite (Missing B), <- F, E. reflexivity.
Qed.

Lemma view_profiles_lookup_witness :
  reachable Sample.db2
  /\ view_profiles Sample.db2 (Some 7%Z)
     = Listing (rev (users Sample.db2)) (Some (NotFound not_found_message))
  /\ view_profiles (init_db None) (Some 1%Z)
     = NoProfiles (lit "No profiles created yet.").
Proof.
  assert (R : reachable Sample.db2) by (repeat constructor).
  split; [exact R |]. split.
  - apply (view_profiles_lookup Sample.db2 7 R).
    + discriminate.
    + right. simpl. lia.
  - apply (view_profiles_lookup (init_db None) 1 reachable_init).
    reflexivity.
Defined.

(** X10. What the Create Profile page shows on an accepted submission is
    what the View Profiles lookup of the new id generates afterwards: for a
    name with a visible character and conditions from the multiselect
    options, both are the recommendations of the supplied conditions and
    goal, and the success message names the profile as typed. *)
Theorem submit_then_view
    (now name : str) (age : Z) (gender : str) (conds : list str)
    (goal : str) (db : DB) :
  forallb isspace name = false ->
  Forall (fun c => In c vocabulary) conds ->
  let r := submit now name age gender conds goal db in
  snd r = Saved (lit "Profile saved for " ++ name ++ lit ".")
                (generate_recommendations conds goal)
  /\ generate_for_selected (fetch_profiles (fst r)) (new_rowid db)
     = Generated (generate_recommendations conds goal)
  /\ view_profiles (fst r) (Some (new_rowid db))
     = Listing (fetch_profiles (fst r))
         (Some (Generated (generate_recommendations conds goal))).
Proof.
  intros B V. cbv zeta. unfold submit. rewrite strip_eqb, B.
  cbn [fst snd]. split; [reflexivity |].
  assert (G : generate_for_selected
                (fetch_profiles (save_profile now name age gender conds goal db))
                (new_rowid db)
              = Generated (generate_recommendations conds goal)).
  { unfold generate_for_selected. rewrite select_new_row.
    rewrite (stored_conditions_join _ conds); [reflexivity | reflexivity | |].
    - rewrite Forall_forall in V. intros x Hx.
      apply (vocabulary_clean x (V x Hx)).
    - intros E. subst conds. inversion V as [|? ? H0 _]; subst.
      apply (proj2 (vocabulary_clean [] H0)). reflexivity. }
  split; [exact G |].
  unfold view_profiles. rewrite G. rewrite fetch_after_save. reflexivity.
Qed.

Lemma submit_then_view_witness :
  forallb isspace (lit " Meera Nair") = false
  /\ Forall (fun c => In c vocabulary) [lit "Heart Risk"; lit "Obesity"]
  /\ generate_for_selected
       (fetch_profiles
          (fst (submit (lit "2024-01-03T08:00:00.000000") (lit " Meera Nair")
                  52 (lit "Female") [lit "Heart Risk"; lit "Obesity"]
                  Energy_Boost Sample.db2)))
       3%Z
     = Generated
         (generate_recommendations [lit "Heart Risk"; lit "Obesity"]
            Energy_Boost).
Proof.
  assert (V : Forall (fun c => In c vocabulary)
                [lit "Heart Risk"; lit "Obesity"]).
  { repeat constructor; simpl; tauto. }
  split; [reflexivity |]. split; [exact V |].
  exact (proj1 (proj2 (submit_then_view (lit "2024-01-03T08:00:00.000000")
                         (lit " Meera Nair") 52 (lit "Female")
                         [lit "Heart Risk"; lit "Obesity"] Energy_Boost
                         Sample.db2 eq_refl V))).
Defined.

Lemma split_on_no_sep (c : char) (s x : str) :
  In x (split_on c s) -> ~ In c x.
Proof.
  revert x. induction s as [|a s IH]; intros x; simpl.
  - intros [<- | []]. simpl. tauto.
  - unfold char_eqb. destruct (N.eqb_spec a c) as [E | E].
    + intros [<- | H]; [simpl; tauto | apply IH, H].
    + destruct (split_on c s) as [|w ws].
      * intros [<- | []]. simpl. intros [H | []]. apply E. exact H.
      * intros [<- | H].
        -- simpl. intros [H | H]; [apply E; exact H |].
           apply (IH w); [left; reflexivity | exact H].
        -- apply IH. right. exact H.
Qed.

(** X11. The comma-joined column gives back the conditions it was written
    from exactly when no condition holds a comma and the list is not the
    single empty string: for the row [save_profile] writes, reading the
    column back returns the supplied list if and only if the list is clean
    in this sense. *)
Theorem conditions_round_trip_exactly
    (now name : str) (age : Z) (gender : str) (conds : list str)
    (goal : str) (db : DB) :
  exists row,
    select_id
      (fetch_profiles (save_profile now name age gender conds goal db))
      (new_rowid db) = [row]
    /\ (stored_conditions row = conds <-> clean conds).
Proof.
  eexists. split; [apply select_new_row |].
  split.
  - intros E. split.
    + intros x Hx. rewrite <- E in Hx. unfold stored_conditions in Hx.
      cbn [conditions] in Hx.
      destruct (truthy (join [comma] conds)); [| destruct Hx].
      apply (split_on_no_sep comma (join [comma] conds) x Hx).
    + intros C. subst conds. discriminate E.
  - intros [F N]. apply stored_conditions_join; [reflexivity | exact F | exact N].
Qed.
